(** * Schema validation of data frames: the pandas core, the pandas
      validator dispatcher and the polars backend.

    The development embeds three source files,
    - [src/patrol/_core/validation.py]       (module [Core]),
    - [src/patrol/_pandas/validator_impl.py] (module [PandasImpl]),
    - [src/patrol/polars.py]                 (module [Polars]),
    and proves properties of the embedded functions.  Python exceptions are
    values of [exn]; every function that can raise runs in the monad [M],
    which also records, in order, the accesses made to the data frame. *)

From stdpp Require Import gmap strings list pretty.

Open Scope Z_scope.

(** ** Python-level data shared by the three files *)

(** The types a schema annotates a column with.  [Tother] is any other
    hashable annotation, given by the text [str()] prints for it. *)
Inductive pytype :=
| Tint | Tfloat | Tstr | Tbool
| Tdatetime | Tdate | Ttimedelta
| Tother (repr : string).

#[global] Instance pytype_eq_dec : EqDecision pytype.
Proof. solve_decision. Defined.

(** [expected_type.__name__] *)
Definition type_name (t : pytype) : string :=
  match t with
  | Tint => "int" | Tfloat => "float" | Tstr => "str" | Tbool => "bool"
  | Tdatetime => "datetime" | Tdate => "date" | Ttimedelta => "timedelta"
  | Tother r => r
  end.

(** [f"{expected_type}"] *)
Definition type_str (t : pytype) : string :=
  match t with
  | Tint => "<class 'int'>" | Tfloat => "<class 'float'>"
  | Tstr => "<class 'str'>" | Tbool => "<class 'bool'>"
  | Tdatetime => "<class 'datetime.datetime'>"
  | Tdate => "<class 'datetime.date'>"
  | Ttimedelta => "<class 'datetime.timedelta'>"
  | Tother r => r
  end.

(** The exceptions the three files raise, and the lookup errors of the two
    data frame libraries ([df[col_name]] on an absent column). *)
Inductive exn :=
| ValueError (msg : string)
| TypeError (msg : string)
| KeyError (key : string)
| ColumnNotFoundError (key : string).

Inductive exn_class := ValueError_class | TypeError_class | LookupError_class.

(** [type(e)], up to the two lookup errors. *)
Definition class_of (e : exn) : exn_class :=
  match e with
  | ValueError _ => ValueError_class
  | TypeError _ => TypeError_class
  | KeyError _ | ColumnNotFoundError _ => LookupError_class
  end.

(** Modelled from the spec: [patrol.validators.Range] is imported by
    [validator_impl.py] and by the tests but its declaration is not in the
    source tree.  The spec gives it as [Range{min, max}]; the code reads the
    attributes [validator.min] and [validator.max].  Bounds are numbers,
    taken here as integers. *)
Module Range.
Record t := mk { min : Z; max : Z }.
End Range.

(** A validator object as [apply_validator] receives it ([validator: Any]):
    an instance of [Range], or any other object, of which only the text of
    [type(validator)] is ever used. *)
Inductive validator :=
| IsRange (r : Range.t)
| NotRange (type_repr : string).

(** A column annotation of a [Protocol] schema: a bare type, or
    [Annotated[t, v1, ..., vn]]. *)
Inductive annotation :=
| Plain (t : pytype)
| Annotated (t : pytype) (metadata : list validator).

(** A schema class, as the ordered list of its annotated attributes. *)
Definition schema := list (string * annotation).

Definition origin (a : annotation) : pytype :=
  match a with Plain t => t | Annotated t _ => t end.

Definition metadata_of (a : annotation) : list validator :=
  match a with Plain _ => [] | Annotated _ vs => vs end.

(** [typing.get_type_hints(schema)], called with its default
    [include_extras=False]: every [Annotated[t, ...]] is replaced by [t]. *)
Definition get_type_hints (s : schema) : list (string * pytype) :=
  map (λ p, (p.1, origin p.2)) s.

(** A column: its physical type and its values. *)
Record Series (D V : Type) := mkSeries { dtype : D; values : list V }.
Arguments mkSeries {D V} _ _.
Arguments dtype {D V} _.
Arguments values {D V} _.

(** ** The monad of the validation functions *)

(** What a function did with the table it was given. *)
Inductive event :=
| ReadColumns                              (* df.columns *)
| ReadColumn (col : string)                (* df[col] *)
| ApplyChecker (t : pytype) (col : string) (* TYPE_CHECKERS[t](...) on df[col] *)
| CompareLt (bound : Z)                    (* series < bound *)
| CompareGt (bound : Z).                   (* series > bound *)

#[global] Instance event_eq_dec : EqDecision event.
Proof. solve_decision. Defined.

Definition M (A : Type) : Type := list event * (exn + A).

Definition ret {A} (a : A) : M A := ([], inr a).

Definition raise {A} (e : exn) : M A := ([], inl e).

Definition tell (ev : event) : M unit := ([ev], inr tt).

Definition bind {A B} (m : M A) (k : A → M B) : M B :=
  match m with
  | (w, inl e) => (w, inl e)
  | (w, inr a) => let r := k a in (w ++ r.1, r.2)
  end.

Declare Scope py_scope.
Delimit Scope py_scope with py.
Notation "x <- m ;; k" := (bind m (λ x, k))
  (at level 100, m at next level, right associativity) : py_scope.
Notation "m ;; k" := (bind m (λ _, k))
  (at level 100, right associativity) : py_scope.
Open Scope py_scope.

(** The trace and the outcome of a run. *)
Definition trace {A} (m : M A) : list event := m.1.
Definition outcome {A} (m : M A) : exn + A := m.2.

(** [for x in l: f(x)] *)
Fixpoint for_each {A} (f : A → M unit) (l : list A) : M unit :=
  match l with
  | [] => ret tt
  | x :: l' => f x ;; for_each f l'
  end.

(** The column an event is about, if it is about one. *)
Definition event_column (ev : event) : option string :=
  match ev with
  | ReadColumn c | ApplyChecker _ c => Some c
  | ReadColumns | CompareLt _ | CompareGt _ => None
  end.

(** [key in table] for a dict given as an association list. *)
Fixpoint assoc {K V} `{EqDecision K} (k : K) (l : list (K * V)) : option V :=
  match l with
  | [] => None
  | (k', v) :: l' => if decide (k = k') then Some v else assoc k l'
  end.

(** ** [src/patrol/_core/validation.py] *)
Module Core.

(** The four predicates of [pd.api.types] the registry refers to, and the
    text of a dtype.  They belong to pandas, not to this repository. *)
Class PandasTypes (D V : Type) := {
  is_integer_dtype : Series D V → bool;
  is_float_dtype : Series D V → bool;
  is_string_dtype : Series D V → bool;
  is_bool_dtype : Series D V → bool;
  dtype_str : D → string
}.

Section Validation.
Context {D V : Type} `{PandasTypes D V}.

Definition TYPE_CHECKERS : list (pytype * (Series D V → bool)) :=
  [ (Tint, is_integer_dtype);
    (Tfloat, is_float_dtype);
    (Tstr, is_string_dtype);
    (Tbool, is_bool_dtype) ].

(** [df.columns] *)
Definition columns (df : gmap string (Series D V)) : M (gset string) :=
  tell ReadColumns ;; ret (dom df).

(** [df[col_name]] *)
Definition getitem (df : gmap string (Series D V)) (col_name : string)
  : M (Series D V) :=
  tell (ReadColumn col_name) ;;
  match df !! col_name with
  | Some s => ret s
  | None => raise (KeyError col_name)
  end.

(** [type_checker(series)] for the checker registered under [t] *)
Definition call (t : pytype) (type_checker : Series D V → bool)
    (col_name : string) (s : Series D V) : M bool :=
  tell (ApplyChecker t col_name) ;; ret (type_checker s).

Definition _check_column_exists (df : gmap string (Series D V))
    (col_name : string) : M unit :=
  cols <- columns df ;;
  if bool_decide (col_name ∉ cols)
  then raise (ValueError ("Missing column: " +:+ col_name))
  else ret tt.

Definition _check_column_type (df : gmap string (Series D V))
    (col_name : string) (expected_type : pytype) : M unit :=
  match assoc expected_type TYPE_CHECKERS with
  | None => raise (ValueError ("Unsupported type: " +:+ type_str expected_type))
  | Some type_checker =>
      s <- getitem df col_name ;;
      ok <- call expected_type type_checker col_name s ;;
      if negb ok
      then
        s' <- getitem df col_name ;;
        raise (TypeError ("Column '" +:+ col_name +:+ "' expected "
                            +:+ type_name expected_type +:+ ", got "
                            +:+ dtype_str (dtype s')))
      else ret tt
  end.

Definition validate_dataframe (df : gmap string (Series D V))
    (schema : schema) : M unit :=
  let expected_cols := get_type_hints schema in
  for_each (λ '(col_name, col_type),
              _check_column_exists df col_name ;;
              _check_column_type df col_name col_type)
           expected_cols.

End Validation.
End Core.

(** ** [src/patrol/_pandas/validator_impl.py] *)
Module PandasImpl.

(** An entry of a numeric column: a number, or the missing-value marker
    ([NaN], [pd.NA]).  Every ordering comparison with a missing value is
    false in pandas ([<NA>] answers are skipped by [.any()]). *)
Inductive cell := Num (z : Z) | NaN.

Definition cell_lt (c : cell) (bound : Z) : bool :=
  match c with Num z => bool_decide (z < bound) | NaN => false end.

Definition cell_gt (c : cell) (bound : Z) : bool :=
  match c with Num z => bool_decide (z > bound) | NaN => false end.

(** [series < bound]: the element-wise mask *)
Definition lt {D} (series : Series D cell) (bound : Z) : M (list bool) :=
  tell (CompareLt bound) ;; ret (map (λ c, cell_lt c bound) (values series)).

(** [series > bound] *)
Definition gt {D} (series : Series D cell) (bound : Z) : M (list bool) :=
  tell (CompareGt bound) ;; ret (map (λ c, cell_gt c bound) (values series)).

(** [mask.any()] *)
Definition any (mask : list bool) : bool := existsb id mask.

(** Python's short-circuit [a or b] on two computations of a truth value. *)
Definition or_ (a b : M bool) : M bool :=
  x <- a ;; if x then ret true else b.

Definition _validate_range {D} (series : Series D cell) (validator : Range.t)
    (col_name : string) : M unit :=
  out_of_range <- or_ (mask <- lt series (Range.min validator) ;; ret (any mask))
                      (mask <- gt series (Range.max validator) ;; ret (any mask)) ;;
  if out_of_range
  then raise (ValueError ("Column '" +:+ col_name
                            +:+ "': values must be in range ["
                            +:+ pretty (Range.min validator) +:+ ", "
                            +:+ pretty (Range.max validator) +:+ "]"))
  else ret tt.

Definition apply_validator {D} (series : Series D cell) (validator : validator)
    (col_name : string) : M unit :=
  match validator with
  | IsRange r => _validate_range series r col_name
  | NotRange type_repr =>
      raise (ValueError ("Unknown validator type: " +:+ type_repr))
  end.

End PandasImpl.

(** ** [src/patrol/polars.py] *)
Module Polars.

(** The polars data types the registry names, and the other ones a column
    can have. *)
Inductive pl_dtype :=
| Int8 | Int16 | Int32 | Int64
| UInt8 | UInt16 | UInt32 | UInt64
| Float32 | Float64
| Utf8 | Boolean
| Datetime | Date | Duration | Time
| Categorical | Null.

#[global] Instance pl_dtype_eq_dec : EqDecision pl_dtype.
Proof. solve_decision. Defined.

(** [f"{col_dtype}"] *)
Definition dtype_str (d : pl_dtype) : string :=
  match d with
  | Int8 => "Int8" | Int16 => "Int16" | Int32 => "Int32" | Int64 => "Int64"
  | UInt8 => "UInt8" | UInt16 => "UInt16" | UInt32 => "UInt32"
  | UInt64 => "UInt64"
  | Float32 => "Float32" | Float64 => "Float64"
  | Utf8 => "Utf8" | Boolean => "Boolean"
  | Datetime => "Datetime" | Date => "Date" | Duration => "Duration"
  | Time => "Time" | Categorical => "Categorical" | Null => "Null"
  end.

Definition TYPE_CHECKERS : list (pytype * (pl_dtype → bool)) :=
  [ (Tint, λ dtype, bool_decide (dtype ∈ [Int8; Int16; Int32; Int64;
                                           UInt8; UInt16; UInt32; UInt64]));
    (Tfloat, λ dtype, bool_decide (dtype ∈ [Float32; Float64]));
    (Tstr, λ dtype, bool_decide (dtype = Utf8));
    (Tbool, λ dtype, bool_decide (dtype = Boolean)) ].

Section Validation.
Context {V : Type}.

(** [df.columns] *)
Definition columns (df : gmap string (Series pl_dtype V)) : M (gset string) :=
  tell ReadColumns ;; ret (dom df).

(** [df[col_name]] *)
Definition getitem (df : gmap string (Series pl_dtype V)) (col_name : string)
  : M (Series pl_dtype V) :=
  tell (ReadColumn col_name) ;;
  match df !! col_name with
  | Some s => ret s
  | None => raise (ColumnNotFoundError col_name)
  end.

(** [type_checker(col_dtype)] for the checker registered under [t] *)
Definition call (t : pytype) (type_checker : pl_dtype → bool)
    (col_name : string) (col_dtype : pl_dtype) : M bool :=
  tell (ApplyChecker t col_name) ;; ret (type_checker col_dtype).

Definition _check_column_exists (df : gmap string (Series pl_dtype V))
    (col_name : string) : M unit :=
  cols <- columns df ;;
  if bool_decide (col_name ∉ cols)
  then raise (ValueError ("Missing column: " +:+ col_name))
  else ret tt.

Definition _check_column_type (df : gmap string (Series pl_dtype V))
    (col_name : string) (expected_type : pytype) : M unit :=
  match assoc expected_type TYPE_CHECKERS with
  | None => raise (ValueError ("Unsupported type: " +:+ type_str expected_type))
  | Some type_checker =>
      s <- getitem df col_name ;;
      let col_dtype := dtype s in
      ok <- call expected_type type_checker col_name col_dtype ;;
      if negb ok
      then raise (TypeError ("Column '" +:+ col_name +:+ "' expected "
                               +:+ type_name expected_type +:+ ", got "
                               +:+ dtype_str col_dtype))
      else ret tt
  end.

Definition validate_dataframe (df : gmap string (Series pl_dtype V))
    (schema : schema) : M unit :=
  let expected_cols := get_type_hints schema in
  for_each (λ '(col_name, col_type),
              _check_column_exists df col_name ;;
              _check_column_type df col_name col_type)
           expected_cols.

End Validation.

(** *** The class [DataFrame] and the objects it handles *)

(** [DataFrame] itself ([_schema = None]) and the classes
    [__class_getitem__] creates ([_schema = schema]). *)
Inductive wrapper_class :=
| DataFrame
| TypedDataFrame (schema : schema).

(** The class of a data frame object: [pl.DataFrame], or one of its
    subclasses above. *)
Inductive pyclass :=
| pl_DataFrame
| Wrapper (c : wrapper_class).

(** A data frame object in the store. *)
Record object (V : Type) := mkObject {
  class : pyclass;
  frame : gmap string (Series pl_dtype V)
}.
Arguments mkObject {V} _ _.
Arguments class {V} _.
Arguments frame {V} _.

(** A Python value passed as [data]: a reference to an object of the store,
    or raw data (a dict, a list, ...) of type [R]. *)
Inductive pyvalue (R : Type) :=
| Ref (l : positive)
| Raw (r : R).
Arguments Ref {R} _.
Arguments Raw {R} _.

(** The constructor [pl.DataFrame(data, *args, **kwargs)] of polars: the
    frame it builds, or the exception it raises.  It belongs to polars. *)
Class PolarsConstructor (V R : Type) := {
  pl_DataFrame_init :
    pyvalue R → list (pyvalue R) → list (string * pyvalue R)
    → exn + gmap string (Series pl_dtype V)
}.

Section Wrapper.
Context {V R : Type} `{PolarsConstructor V R}.

(** [cls._schema] *)
Definition _schema (cls : wrapper_class) : option schema :=
  match cls with
  | DataFrame => None
  | TypedDataFrame schema => Some schema
  end.

Definition __class_getitem__ (cls : wrapper_class) (schema : schema)
  : wrapper_class :=
  TypedDataFrame schema.

(** [isinstance(data, pl.DataFrame)]: [data] refers to an object of the
    store (every class of [pyclass] is [pl.DataFrame] or derives from it).
    The address is returned with a positive answer. *)
Definition isinstance_pl_DataFrame (h : gmap positive (object V))
    (data : pyvalue R) : option positive :=
  match data with
  | Ref l => if decide (is_Some (h !! l)) then Some l else None
  | Raw _ => None
  end.

(** [pl.DataFrame(data, *args, **kwargs)]: a new object of class
    [pl.DataFrame] at a fresh address. *)
Definition pl_DataFrame_new (data : pyvalue R) (args : list (pyvalue R))
    (kwargs : list (string * pyvalue R)) (h : gmap positive (object V))
  : exn + (gmap positive (object V) * positive) :=
  match pl_DataFrame_init data args kwargs with
  | inl e => inl e
  | inr fr =>
      let l := fresh (dom h) in
      inr (<[l := mkObject pl_DataFrame fr]> h, l)
  end.

(** The columns of the object at an address. *)
Definition frame_of (h : gmap positive (object V)) (l : positive)
  : gmap string (Series pl_dtype V) :=
  from_option frame ∅ (h !! l).

(** [DataFrame.__new__]: the store afterwards, and the address returned or
    the exception raised.  A call [cls(data, ...)] is this function: Python
    runs [__init__] on the result only when the result is an instance of
    [cls], and the result here is [data] itself or a new [pl.DataFrame]. *)
Definition __new__ (cls : wrapper_class) (data : pyvalue R)
    (args : list (pyvalue R)) (kwargs : list (string * pyvalue R))
    (h : gmap positive (object V)) : gmap positive (object V) * M positive :=
  let created :=
    match isinstance_pl_DataFrame h data with
    | Some l => inr (h, l)
    | None => pl_DataFrame_new data args kwargs h
    end in
  match created with
  | inl e => (h, raise e)
  | inr (h', instance) =>
      (h',
       match _schema cls with
       | Some schema => validate_dataframe (frame_of h' instance) schema
       | None => ret tt
       end ;;
       ret instance)
  end.

(** One constructor call of a program: [pl.DataFrame(...)] or
    [cls(...)] for [cls] the wrapper or one of its schema-bound classes. *)
Inductive step : gmap positive (object V) → gmap positive (object V) → Prop :=
| step_pl data args kwargs h h' l :
    pl_DataFrame_new data args kwargs h = inr (h', l) →
    step h h'
| step_new cls data args kwargs h :
    step h (__new__ cls data args kwargs h).1.

(** The stores a program reaches from the empty one. *)
Definition reachable (h : gmap positive (object V)) : Prop := rtc step ∅ h.

End Wrapper.
End Polars.

(** ** Tables, schemas and library behaviour used to run the functions *)
Module Samples.

(** A few pandas dtypes and the answers of [pd.api.types] on them. *)
Inductive pd_dtype := int64 | float64 | object_ | bool_ | datetime64.

#[global] Instance pd_dtype_eq_dec : EqDecision pd_dtype.
Proof. solve_decision. Defined.

#[global] Instance pandas_types {V} : Core.PandasTypes pd_dtype V := {|
  Core.is_integer_dtype s := bool_decide (dtype s = int64);
  Core.is_float_dtype s := bool_decide (dtype s = float64);
  Core.is_string_dtype s := bool_decide (dtype s = object_);
  Core.is_bool_dtype s := bool_decide (dtype s = bool_);
  Core.dtype_str d :=
    match d with
    | int64 => "int64" | float64 => "float64" | object_ => "object"
    | bool_ => "bool" | datetime64 => "datetime64[ns]"
    end
|}.

(** Raw data for [pl.DataFrame(...)]: named columns already typed; the
    constructor stores them and ignores its other arguments. *)
#[global] Instance polars_constructor {V}
  : Polars.PolarsConstructor V (list (string * Series Polars.pl_dtype V)) := {|
  Polars.pl_DataFrame_init data _ _ :=
    match data with
    | Polars.Raw cols => inr (list_to_map cols)
    | Polars.Ref _ => inl (TypeError "DataFrame constructor called with unsupported type")
    end
|}.

(** Cell values of the tables of the tests. *)
Inductive pyval := PyInt (z : Z) | PyStr (s : string) | PyBool (b : bool).

(** The schemas of the tests. *)
Definition SimpleSchema : schema := [("a", Plain Tint)].

Definition AgeSchema : schema :=
  [("age", Annotated Tint [IsRange (Range.mk 0 150)])].

Definition DatetimeSchema : schema :=
  [("created_at", Plain Tdatetime);
   ("event_date", Plain Tdate);
   ("duration", Plain Ttimedelta)].

(** [{"age": [25, -5, 30]}] *)
Definition age_series {D} (d : D) : Series D PandasImpl.cell :=
  mkSeries d [PandasImpl.Num 25; PandasImpl.Num (-5); PandasImpl.Num 30].

Definition age_frame {D} (d : D) : gmap string (Series D PandasImpl.cell) :=
  {[ "age" := age_series d ]}.

(** The table of [test_dataframe_datetime_types]; a polars datetime is a
    count of microseconds, a date a count of days. *)
Definition datetime_frame : gmap string (Series Polars.pl_dtype Z) :=
  list_to_map
    [("created_at", mkSeries Polars.Datetime [1704110400000000; 1704202200000000]);
     ("event_date", mkSeries Polars.Date [19723; 19724]);
     ("duration", mkSeries Polars.Duration [86400000000; 183600000000])].

(** [{"age": [25, 30, 45, 100]}], held by a plain [pl.DataFrame] at
    address 1 of a store. *)
Definition ages_in_range {D} (d : D) : Series D PandasImpl.cell :=
  mkSeries d [PandasImpl.Num 25; PandasImpl.Num 30; PandasImpl.Num 45;
              PandasImpl.Num 100].


(** A store holding the table [{"age": [25, -5, 30]}] as a plain
    [pl.DataFrame] at address 1. *)
Definition age_store : gmap positive (Polars.object PandasImpl.cell) :=
  {[ 1%positive := Polars.mkObject Polars.pl_DataFrame (age_frame Polars.Int64) ]}.

(** The same for the table of datetimes. *)
Definition datetime_store : gmap positive (Polars.object Z) :=
  {[ 1%positive := Polars.mkObject Polars.pl_DataFrame datetime_frame ]}.

(** [{"a": ["x", "y", "z"]}] and [{"a": [1, 2, 3], "b": ["x", "y", "z"]}] *)
Definition text_a : gmap string (Series Polars.pl_dtype pyval) :=
  {[ "a" := mkSeries Polars.Utf8 [PyStr "x"; PyStr "y"; PyStr "z"] ]}.

(** The store holding one table, as a plain [pl.DataFrame] at address 1. *)
Definition store_of (fr : gmap string (Series Polars.pl_dtype pyval))
  : gmap positive (Polars.object pyval) :=
  {[ 1%positive := Polars.mkObject Polars.pl_DataFrame fr ]}.

(** [{"a": ["x", "y", "z"], "b": [1, 2, 3]}] *)
Definition text_a_int_b : gmap string (Series Polars.pl_dtype pyval) :=
  <[ "b" := mkSeries Polars.Int64 [PyInt 1; PyInt 2; PyInt 3] ]> text_a.

(** The type [bytes], which neither registry has an entry for. *)
Definition Tbytes : pytype := Tother "<class 'bytes'>".

Definition a123_with_b : gmap string (Series pd_dtype pyval) :=
  <[ "b" := mkSeries object_ [PyStr "x"; PyStr "y"; PyStr "z"] ]>
    {[ "a" := mkSeries int64 [PyInt 1; PyInt 2; PyInt 3] ]}.

Definition a123 : gmap string (Series pd_dtype pyval) :=
  {[ "a" := mkSeries int64 [PyInt 1; PyInt 2; PyInt 3] ]}.

End Samples.

(** ** Predicates the properties are stated with *)

(** The column names a schema declares, in declaration order. *)
Definition declared (s : schema) : list string := s.*1.

(** The first declared column that a table lacks. *)
Definition first_absent {X} (df : gmap string X) (s : schema) : option string :=
  head (filter (λ c, c ∉ dom df) (declared s)).

(** A declared column conforms to a pandas table: it exists, its logical
    type is registered, and the registered checker accepts the column. *)
Definition core_conforms {D V} `{Core.PandasTypes D V}
    (df : gmap string (Series D V)) (p : string * annotation) : Prop :=
  ∃ type_checker s,
    assoc (origin p.2) Core.TYPE_CHECKERS = Some type_checker
    ∧ df !! p.1 = Some s
    ∧ type_checker s = true.

(** The same for a polars table: the checker is asked about the dtype. *)
Definition polars_conforms {V}
    (df : gmap string (Series Polars.pl_dtype V)) (p : string * annotation)
  : Prop :=
  ∃ type_checker s,
    assoc (origin p.2) Polars.TYPE_CHECKERS = Some type_checker
    ∧ df !! p.1 = Some s
    ∧ type_checker (dtype s) = true.


(** A value is below the lower bound or above the upper bound. *)
Definition out_of_range (r : Range.t) (c : PandasImpl.cell) : Prop :=
  match c with
  | PandasImpl.Num z => z < Range.min r ∨ z > Range.max r
  | PandasImpl.NaN => False
  end.


(** Every object of a store is a plain [pl.DataFrame]. *)
Definition all_plain {V} (h : gmap positive (Polars.object V)) : Prop :=
  map_Forall (λ _ o, Polars.class o = Polars.pl_DataFrame) h.

(** * Properties *)

(** ** The monad and the loop *)
Section MonadFacts.
Context {A : Type}.
Implicit Types (f g : A → M unit) (l : list A).

Lemma bind_ret_l {B C} (b : B) (k : B → M C) : bind (ret b) k = k b.
Proof. unfold bind, ret. simpl. by destruct (k b). Qed.

Lemma bind_assoc {B C E} (m : M B) (k : B → M C) (k' : C → M E) :
  bind (bind m k) k' = bind m (λ x, bind (k x) k').
Proof.
  destruct m as [w [e|b]]; simpl; [done|].
  destruct (k b) as [w1 [e|c]]; simpl; [done|].
  destruct (k' c) as [w2 r]; simpl. by rewrite (assoc_L (++)).
Qed.

Lemma bind_ok {B C} (m : M B) (k : B → M C) (b : B) :
  outcome m = inr b → bind m k = (trace m ++ trace (k b), outcome (k b)).
Proof. destruct m as [w [e|b']]; simpl; intros Hm; by simplify_eq. Qed.

Lemma bind_raise {B C} (m : M B) (k : B → M C) (e : exn) :
  outcome m = inl e → bind m k = (trace m, inl e).
Proof. destruct m as [w [e'|b']]; simpl; intros Hm; by simplify_eq. Qed.

Lemma for_each_app f l1 l2 :
  for_each f (l1 ++ l2) = (for_each f l1 ;; for_each f l2).
Proof.
  induction l1 as [|x l1 IH].
  - by rewrite (bind_ret_l tt).
  - simpl. by rewrite IH, bind_assoc.
Qed.

Lemma for_each_ext f g l :
  (∀ x, x ∈ l → f x = g x) → for_each f l = for_each g l.
Proof.
  induction l as [|x l IH]; intros Hfg; simpl; [done|].
  rewrite (Hfg x) by left. rewrite IH; [done|].
  intros y Hy. apply Hfg. by right.
Qed.

Lemma for_each_ok f l :
  outcome (for_each f l) = inr tt ↔ ∀ x, x ∈ l → outcome (f x) = inr tt.
Proof.
  induction l as [|x l IH]; simpl.
  - split; [|done]. intros _ y Hy. by apply elem_of_nil in Hy.
  - destruct (f x) as [w [e|[]]] eqn:Hfx; simpl.
    + split; [done|]. intros Hall.
      specialize (Hall x (list_elem_of_here _ _)). by rewrite Hfx in Hall.
    + rewrite IH. split.
      * intros Hall y [->|Hy]%elem_of_cons; [by rewrite Hfx|by apply Hall].
      * intros Hall y Hy. apply Hall. by right.
Qed.

(** A loop that raises stopped at the first element whose body raised. *)
Lemma for_each_raises f l e :
  outcome (for_each f l) = inl e →
  ∃ l1 x l2, l = l1 ++ x :: l2
             ∧ outcome (for_each f l1) = inr tt
             ∧ outcome (f x) = inl e
             ∧ trace (for_each f l) = trace (for_each f l1) ++ trace (f x).
Proof.
  unfold trace, outcome.
  induction l as [|x l IH]; [done|].
  cbn [for_each]. destruct (f x) as [w [e'|[]]] eqn:Hfx; cbn.
  - intros [= ->]. exists [], x, l. by rewrite Hfx.
  - intros (l1 & y & l2 & -> & Hl1 & Hy & Htr)%IH.
    exists (x :: l1), y, l2. cbn [for_each]. rewrite Hfx. cbn.
    split_and!; [done|done|done|]. by rewrite Htr, (assoc_L (++)).
Qed.

Lemma for_each_stop f l1 x l2 e :
  outcome (for_each f l1) = inr tt →
  outcome (f x) = inl e →
  for_each f (l1 ++ x :: l2) = (trace (for_each f l1) ++ trace (f x), inl e).
Proof.
  intros Hl1 Hx. rewrite for_each_app, (bind_ok _ _ tt Hl1). simpl.
  by rewrite (bind_raise _ _ e Hx).
Qed.

(** Every event of a loop is an event of one of its iterations. *)
Lemma for_each_trace f l ev :
  ev ∈ trace (for_each f l) → ∃ x, x ∈ l ∧ ev ∈ trace (f x).
Proof.
  induction l as [|x l IH]; simpl; [by intros ?%elem_of_nil|].
  destruct (f x) as [w [e'|[]]] eqn:Hfx; simpl.
  - intros Hev. exists x. split; [left|by rewrite Hfx].
  - intros [Hev|Hev]%elem_of_app.
    + exists x. split; [left|by rewrite Hfx].
    + destruct (IH Hev) as (y & Hy & Hev'). exists y. split; [by right|done].
Qed.

End MonadFacts.

(** ** The pandas core: one column at a time *)
Section CoreFacts.
Context {D V : Type} `{Core.PandasTypes D V}.
Implicit Types (df : gmap string (Series D V)) (c : string) (t : pytype).

(** One iteration of the loop of [validate_dataframe]. *)
Local Abbreviation body df c t :=
  (bind (Core._check_column_exists df c)
        (λ _, Core._check_column_type df c t)).

Lemma core_validate_unfold df (s : schema) :
  Core.validate_dataframe df s
  = for_each (λ p, body df p.1 p.2) (get_type_hints s).
Proof.
  unfold Core.validate_dataframe. apply for_each_ext. by intros [c t] _.
Qed.

Lemma core_exists_present df c :
  c ∈ dom df → Core._check_column_exists df c = ([ReadColumns], inr tt).
Proof.
  intros Hc. unfold Core._check_column_exists, Core.columns. cbn.
  by rewrite bool_decide_eq_false_2 by (by intros []).
Qed.

Lemma core_exists_absent df c :
  c ∉ dom df →
  Core._check_column_exists df c
  = ([ReadColumns], inl (ValueError ("Missing column: " +:+ c))).
Proof.
  intros Hc. unfold Core._check_column_exists, Core.columns. cbn.
  by rewrite bool_decide_eq_true_2.
Qed.

Lemma core_type_unsupported df c t :
  assoc t Core.TYPE_CHECKERS = None →
  Core._check_column_type df c t
  = ([], inl (ValueError ("Unsupported type: " +:+ type_str t))).
Proof. intros Ht. unfold Core._check_column_type. by rewrite Ht. Qed.

Lemma core_type_accepts df c t type_checker s :
  assoc t Core.TYPE_CHECKERS = Some type_checker →
  df !! c = Some s →
  type_checker s = true →
  Core._check_column_type df c t
  = ([ReadColumn c; ApplyChecker t c], inr tt).
Proof.
  intros Ht Hs Hok. unfold Core._check_column_type, Core.getitem, Core.call.
  rewrite Ht, Hs. cbn. by rewrite Hok.
Qed.

Lemma core_type_rejects df c t type_checker s :
  assoc t Core.TYPE_CHECKERS = Some type_checker →
  df !! c = Some s →
  type_checker s = false →
  Core._check_column_type df c t
  = ([ReadColumn c; ApplyChecker t c; ReadColumn c],
     inl (TypeError ("Column '" +:+ c +:+ "' expected " +:+ type_name t
                       +:+ ", got " +:+ Core.dtype_str (dtype s)))).
Proof.
  intros Ht Hs Hok. unfold Core._check_column_type, Core.getitem, Core.call.
  rewrite Ht, Hs. cbn. by rewrite Hok.
Qed.

(** The four ways one iteration of the loop can go. *)
Lemma core_body_cases df c t :
  ((c ∉ dom df)
   ∧ body df c t
     = ([ReadColumns], inl (ValueError ("Missing column: " +:+ c))))
  ∨ (c ∈ dom df ∧ assoc t Core.TYPE_CHECKERS = None
     ∧ body df c t
       = ([ReadColumns], inl (ValueError ("Unsupported type: " +:+ type_str t))))
  ∨ (∃ type_checker s,
       assoc t Core.TYPE_CHECKERS = Some type_checker ∧ df !! c = Some s
       ∧ type_checker s = false
       ∧ body df c t
         = ([ReadColumns; ReadColumn c; ApplyChecker t c; ReadColumn c],
            inl (TypeError ("Column '" +:+ c +:+ "' expected " +:+ type_name t
                              +:+ ", got " +:+ Core.dtype_str (dtype s)))))
  ∨ (∃ type_checker s,
       assoc t Core.TYPE_CHECKERS = Some type_checker ∧ df !! c = Some s
       ∧ type_checker s = true
       ∧ body df c t
         = ([ReadColumns; ReadColumn c; ApplyChecker t c], inr tt)).
Proof.
  destruct (decide (c ∈ dom df)) as [Hin|Hout].
  - right. rewrite (core_exists_present _ _ Hin).
    destruct (assoc t Core.TYPE_CHECKERS) as [chk|] eqn:Ht.
    + right. apply elem_of_dom in Hin as [s Hs].
      destruct (chk s) eqn:Hok.
      * right. exists chk, s. by rewrite (core_type_accepts _ _ _ _ _ Ht Hs Hok).
      * left. exists chk, s. by rewrite (core_type_rejects _ _ _ _ _ Ht Hs Hok).
    + left. by rewrite (core_type_unsupported _ _ _ Ht).
  - left. by rewrite (core_exists_absent _ _ Hout).
Qed.

Lemma core_validate_app df (s1 s2 : schema) :
  Core.validate_dataframe df (s1 ++ s2)
  = (Core.validate_dataframe df s1 ;; Core.validate_dataframe df s2).
Proof.
  rewrite !core_validate_unfold. unfold get_type_hints.
  by rewrite map_app, for_each_app.
Qed.

Lemma core_validate_cons df c a (s : schema) :
  Core.validate_dataframe df ((c, a) :: s)
  = (body df c (origin a) ;; Core.validate_dataframe df s).
Proof. done. Qed.

(** Validation succeeds exactly on the tables every declared column
    conforms to. *)
Lemma core_validate_ok df (s : schema) :
  outcome (Core.validate_dataframe df s) = inr tt
  ↔ Forall (core_conforms df) s.
Proof.
  rewrite core_validate_unfold. unfold get_type_hints.
  rewrite for_each_ok, Forall_forall. split.
  - intros Hall [c a] Hca.
    specialize (Hall (c, origin a)). cbv beta in Hall. cbn [fst snd] in Hall.
    destruct (core_body_cases df c (origin a))
      as [[_ Hb]|[(_&_&Hb)|[(chk&s'&_&_&_&Hb)|(chk&s'&Ht&Hs&Hok&_)]]].
    1-3: rewrite Hb in Hall; discriminate Hall;
         apply list_elem_of_fmap; by exists (c, a).
    by exists chk, s'.
  - intros Hall [c t] ([c' a] & [= -> ->] & Hca)%list_elem_of_fmap.
    destruct (Hall _ Hca) as (chk & s' & Ht & Hs & Hok). cbn [fst snd] in *.
    rewrite (core_exists_present df c') by (apply elem_of_dom; eauto).
    by rewrite (core_type_accepts _ _ _ _ _ Ht Hs Hok).
Qed.

(** An iteration reads nothing but the column it is about. *)
Lemma core_body_events df c t ev c' :
  ev ∈ trace (body df c t) → event_column ev = Some c' → c' = c.
Proof.
  destruct (core_body_cases df c t)
    as [[_ Hb]|[(_&_&Hb)|[(chk&s'&_&_&_&Hb)|(chk&s'&_&_&_&Hb)]]];
    rewrite Hb; cbn; intros Hev Hc;
    repeat (apply elem_of_cons in Hev as [->|Hev]); simplify_eq/=;
    try done; by apply elem_of_nil in Hev.
Qed.

(** An iteration looks at the table only through the declared column. *)
Lemma core_body_agree df df' c t :
  df !! c = df' !! c → body df c t = body df' c t.
Proof.
  intros Heq. destruct (df !! c) as [s|] eqn:Hs.
  - rewrite !core_exists_present by (apply elem_of_dom; eauto).
    destruct (assoc t Core.TYPE_CHECKERS) as [chk|] eqn:Ht.
    + destruct (chk s) eqn:Hok.
      * by rewrite (core_type_accepts df _ _ _ _ Ht Hs Hok),
          (core_type_accepts df' _ _ _ _ Ht (eq_sym Heq) Hok).
      * by rewrite (core_type_rejects df _ _ _ _ Ht Hs Hok),
          (core_type_rejects df' _ _ _ _ Ht (eq_sym Heq) Hok).
    + by rewrite !core_type_unsupported.
  - by rewrite !core_exists_absent by (by apply not_elem_of_dom).
Qed.

End CoreFacts.

(** ** The polars backend: one column at a time *)
Section PolarsFacts.
Context {V : Type}.
Implicit Types (df : gmap string (Series Polars.pl_dtype V)) (c : string) (t : pytype).

(** One iteration of the loop of [validate_dataframe]. *)
Local Abbreviation body df c t :=
  (bind (Polars._check_column_exists df c)
        (λ _, Polars._check_column_type df c t)).

Lemma polars_validate_unfold df (s : schema) :
  Polars.validate_dataframe df s
  = for_each (λ p, body df p.1 p.2) (get_type_hints s).
Proof.
  unfold Polars.validate_dataframe. apply for_each_ext. by intros [c t] _.
Qed.

Lemma polars_exists_present df c :
  c ∈ dom df → Polars._check_column_exists df c = ([ReadColumns], inr tt).
Proof.
  intros Hc. unfold Polars._check_column_exists, Polars.columns. cbn.
  by rewrite bool_decide_eq_false_2 by (by intros []).
Qed.

Lemma polars_exists_absent df c :
  c ∉ dom df →
  Polars._check_column_exists df c
  = ([ReadColumns], inl (ValueError ("Missing column: " +:+ c))).
Proof.
  intros Hc. unfold Polars._check_column_exists, Polars.columns. cbn.
  by rewrite bool_decide_eq_true_2.
Qed.

Lemma polars_type_unsupported df c t :
  assoc t Polars.TYPE_CHECKERS = None →
  Polars._check_column_type df c t
  = ([], inl (ValueError ("Unsupported type: " +:+ type_str t))).
Proof. intros Ht. unfold Polars._check_column_type. by rewrite Ht. Qed.

Lemma polars_type_accepts df c t type_checker s :
  assoc t Polars.TYPE_CHECKERS = Some type_checker →
  df !! c = Some s →
  type_checker (dtype s) = true →
  Polars._check_column_type df c t
  = ([ReadColumn c; ApplyChecker t c], inr tt).
Proof.
  intros Ht Hs Hok. unfold Polars._check_column_type, Polars.getitem, Polars.call.
  rewrite Ht, Hs. cbn. by rewrite Hok.
Qed.

Lemma polars_type_rejects df c t type_checker s :
  assoc t Polars.TYPE_CHECKERS = Some type_checker →
  df !! c = Some s →
  type_checker (dtype s) = false →
  Polars._check_column_type df c t
  = ([ReadColumn c; ApplyChecker t c],
     inl (TypeError ("Column '" +:+ c +:+ "' expected " +:+ type_name t
                       +:+ ", got " +:+ Polars.dtype_str (dtype s)))).
Proof.
  intros Ht Hs Hok. unfold Polars._check_column_type, Polars.getitem, Polars.call.
  rewrite Ht, Hs. cbn. by rewrite Hok.
Qed.

(** The four ways one iteration of the loop can go. *)
Lemma polars_body_cases df c t :
  ((c ∉ dom df)
   ∧ body df c t
     = ([ReadColumns], inl (ValueError ("Missing column: " +:+ c))))
  ∨ (c ∈ dom df ∧ assoc t Polars.TYPE_CHECKERS = None
     ∧ body df c t
       = ([ReadColumns], inl (ValueError ("Unsupported type: " +:+ type_str t))))
  ∨ (∃ type_checker s,
       assoc t Polars.TYPE_CHECKERS = Some type_checker ∧ df !! c = Some s
       ∧ type_checker (dtype s) = false
       ∧ body df c t
         = ([ReadColumns; ReadColumn c; ApplyChecker t c],
            inl (TypeError ("Column '" +:+ c +:+ "' expected " +:+ type_name t
                              +:+ ", got " +:+ Polars.dtype_str (dtype s)))))
  ∨ (∃ type_checker s,
       assoc t Polars.TYPE_CHECKERS = Some type_checker ∧ df !! c = Some s
       ∧ type_checker (dtype s) = true
       ∧ body df c t
         = ([ReadColumns; ReadColumn c; ApplyChecker t c], inr tt)).
Proof.
  destruct (decide (c ∈ dom df)) as [Hin|Hout].
  - right. rewrite (polars_exists_present _ _ Hin).
    destruct (assoc t Polars.TYPE_CHECKERS) as [chk|] eqn:Ht.
    + right. apply elem_of_dom in Hin as [s Hs].
      destruct (chk (dtype s)) eqn:Hok.
      * right. exists chk, s. by rewrite (polars_type_accepts _ _ _ _ _ Ht Hs Hok).
      * left. exists chk, s. by rewrite (polars_type_rejects _ _ _ _ _ Ht Hs Hok).
    + left. by rewrite (polars_type_unsupported _ _ _ Ht).
  - left. by rewrite (polars_exists_absent _ _ Hout).
Qed.

Lemma polars_validate_app df (s1 s2 : schema) :
  Polars.validate_dataframe df (s1 ++ s2)
  = (Polars.validate_dataframe df s1 ;; Polars.validate_dataframe df s2).
Proof.
  rewrite !polars_validate_unfold. unfold get_type_hints.
  by rewrite map_app, for_each_app.
Qed.

Lemma polars_validate_cons df c a (s : schema) :
  Polars.validate_dataframe df ((c, a) :: s)
  = (body df c (origin a) ;; Polars.validate_dataframe df s).
Proof. done. Qed.

(** Validation succeeds exactly on the tables every declared column
    conforms to. *)
Lemma polars_validate_ok df (s : schema) :
  outcome (Polars.validate_dataframe df s) = inr tt
  ↔ Forall (polars_conforms df) s.
Proof.
  rewrite polars_validate_unfold. unfold get_type_hints.
  rewrite for_each_ok, Forall_forall. split.
  - intros Hall [c a] Hca.
    specialize (Hall (c, origin a)). cbv beta in Hall. cbn [fst snd] in Hall.
    destruct (polars_body_cases df c (origin a))
      as [[_ Hb]|[(_&_&Hb)|[(chk&s'&_&_&_&Hb)|(chk&s'&Ht&Hs&Hok&_)]]].
    1-3: rewrite Hb in Hall; discriminate Hall;
         apply list_elem_of_fmap; by exists (c, a).
    by exists chk, s'.
  - intros Hall [c t] ([c' a] & [= -> ->] & Hca)%list_elem_of_fmap.
    destruct (Hall _ Hca) as (chk & s' & Ht & Hs & Hok). cbn [fst snd] in *.
    rewrite (polars_exists_present df c') by (apply elem_of_dom; eauto).
    by rewrite (polars_type_accepts _ _ _ _ _ Ht Hs Hok).
Qed.

(** An iteration reads nothing but the column it is about. *)
Lemma polars_body_events df c t ev c' :
  ev ∈ trace (body df c t) → event_column ev = Some c' → c' = c.
Proof.
  destruct (polars_body_cases df c t)
    as [[_ Hb]|[(_&_&Hb)|[(chk&s'&_&_&_&Hb)|(chk&s'&_&_&_&Hb)]]];
    rewrite Hb; cbn; intros Hev Hc;
    repeat (apply elem_of_cons in Hev as [->|Hev]); simplify_eq/=;
    try done; by apply elem_of_nil in Hev.
Qed.

End PolarsFacts.

(** ** Validation by the pandas core *)
Section CoreProperties.
Context {D V : Type} `{Core.PandasTypes D V}.
Implicit Types (T : gmap string (Series D V)) (S : schema).

Lemma declared_hint S c t :
  (c, t) ∈ get_type_hints S → ∃ a, (c, a) ∈ S ∧ t = origin a.
Proof.
  intros ([c' a] & [= -> ->] & Hin)%list_elem_of_fmap. by exists a.
Qed.

Lemma declared_elem S c a : (c, a) ∈ S → c ∈ declared S.
Proof. intros Hin. apply list_elem_of_fmap. by exists (c, a). Qed.

(** C7: columns of the table that the schema does not declare are never
    read and never make validation fail: two tables that agree on the
    declared columns are validated with the same outcome and the same
    accesses, and every column access is to a declared column. *)
Theorem extra_columns_are_ignored S T T' :
  (∀ c, c ∈ declared S → T !! c = T' !! c) →
  Core.validate_dataframe T S = Core.validate_dataframe T' S
  ∧ (∀ ev c, ev ∈ trace (Core.validate_dataframe T S) →
             event_column ev = Some c → c ∈ declared S).
Proof.
  intros Hagree. split.
  - rewrite !core_validate_unfold. apply for_each_ext.
    intros [c t] (a & Hin & ->)%declared_hint.
    apply core_body_agree, Hagree. by eapply declared_elem.
  - intros ev c. rewrite core_validate_unfold.
    intros ([c' t] & (a & Hin & ->)%declared_hint & Hev)%for_each_trace Hc.
    rewrite (core_body_events _ _ _ _ _ Hev Hc). by eapply declared_elem.
Qed.


End CoreProperties.

(** C7, on the tables of the test for extra columns. *)
Lemma extra_columns_are_ignored_witness :
  (∀ c, c ∈ declared Samples.SimpleSchema →
        Samples.a123_with_b !! c = Samples.a123 !! c)
  ∧ Core.validate_dataframe Samples.a123_with_b Samples.SimpleSchema
    = Core.validate_dataframe Samples.a123 Samples.SimpleSchema
  ∧ outcome (Core.validate_dataframe Samples.a123_with_b Samples.SimpleSchema)
    = inr tt.
Proof.
  assert (∀ c, c ∈ declared Samples.SimpleSchema →
               Samples.a123_with_b !! c = Samples.a123 !! c) as Hagree.
  { intros c ->%list_elem_of_singleton. reflexivity. }
  split; [exact Hagree|]. split.
  - exact (proj1 (extra_columns_are_ignored _ _ _ Hagree)).
  - reflexivity.
Defined.


(** ** Fail-fast order of the checks *)

Lemma first_absent_app {X} (df : gmap string X) (pre post : schema) c a :
  Forall (λ p, p.1 ∈ dom df) pre →
  c ∉ dom df →
  first_absent df (pre ++ (c, a) :: post) = Some c.
Proof.
  intros Hpre Hc. unfold first_absent, declared.
  rewrite fmap_app, filter_app. cbn [fmap list_fmap fst].
  rewrite filter_cons_True by done.
  replace (filter (λ c0, c0 ∉ dom df) pre.*1) with (@nil string); [done|].
  induction Hpre as [|p pre Hp _ IH]; [done|].
  cbn [fmap list_fmap]. rewrite filter_cons_False by (by intros []). exact IH.
Qed.

Section CoreOrder.
Context {D V : Type} `{Core.PandasTypes D V}.
Implicit Types (T : gmap string (Series D V)) (S pre post : schema).

Local Abbreviation body df c t :=
  (bind (Core._check_column_exists df c)
        (λ _, Core._check_column_type df c t)).

Lemma core_conforms_present T pre :
  Forall (core_conforms T) pre → Forall (λ p, p.1 ∈ dom T) pre.
Proof.
  intros Hall. eapply Forall_impl; [exact Hall|].
  intros p (chk & s & _ & Hs & _). apply elem_of_dom. eauto.
Qed.

(** Nothing is read from a column the table lacks. *)
Lemma core_absent_events T c c' t ev :
  c ∉ dom T → ev ∈ trace (body T c' t) → event_column ev ≠ Some c.
Proof.
  intros Hc Hev Hcol.
  pose proof (core_body_events _ _ _ _ _ Hev Hcol) as ->.
  rewrite (core_exists_absent _ _ Hc) in Hev. cbn in Hev.
  apply list_elem_of_singleton in Hev as ->. discriminate Hcol.
Qed.

(** The loop stops at a column whose iteration raises, once the columns
    declared before it conform. *)
Lemma core_stops_at T pre post c a w e :
  Forall (core_conforms T) pre →
  body T c (origin a) = (w, inl e) →
  Core.validate_dataframe T (pre ++ (c, a) :: post)
  = (trace (Core.validate_dataframe T pre) ++ w, inl e).
Proof.
  intros Hpre%core_validate_ok Hb.
  rewrite core_validate_app, (bind_ok _ _ tt Hpre), core_validate_cons, Hb.
  done.
Qed.

Lemma core_missing_column T pre post c a :
  c ∉ dom T →
  (∃ e, outcome (Core.validate_dataframe T (pre ++ (c, a) :: post)) = inl e)
  ∧ (Forall (core_conforms T) pre →
     first_absent T (pre ++ (c, a) :: post) = Some c
     ∧ Core.validate_dataframe T (pre ++ (c, a) :: post)
       = (trace (Core.validate_dataframe T pre) ++ [ReadColumns],
          inl (ValueError ("Missing column: " +:+ c))))
  ∧ (∀ ev, ev ∈ trace (Core.validate_dataframe T (pre ++ (c, a) :: post)) →
           event_column ev ≠ Some c).
Proof.
  intros Hc. split_and!.
  - destruct (outcome _) as [e|[]] eqn:Hout; [by eauto|].
    apply core_validate_ok, Forall_app in Hout as [_ Hca].
    apply Forall_cons in Hca as [(chk & s & _ & Hs & _) _].
    destruct Hc. apply elem_of_dom. eauto.
  - intros Hpre. split.
    + by apply first_absent_app; [apply core_conforms_present|].
    + apply core_stops_at; [done|]. by rewrite (core_exists_absent _ _ Hc).
  - intros ev. rewrite core_validate_unfold.
    intros ([c' t] & _ & Hev)%for_each_trace. by eapply core_absent_events.
Qed.

Lemma core_unsupported_type T pre post c a :
  assoc (origin a) Core.TYPE_CHECKERS = None →
  (∀ T', Core._check_column_type T' c (origin a)
         = ([], inl (ValueError ("Unsupported type: " +:+ type_str (origin a)))))
  ∧ (c ∈ dom T → Forall (core_conforms T) pre →
     Core.validate_dataframe T (pre ++ (c, a) :: post)
     = (trace (Core.validate_dataframe T pre) ++ [ReadColumns],
        inl (ValueError ("Unsupported type: " +:+ type_str (origin a))))).
Proof.
  intros Ht. split.
  - intros T'. by apply core_type_unsupported.
  - intros Hc Hpre. apply core_stops_at; [done|].
    by rewrite (core_exists_present _ _ Hc), (core_type_unsupported _ _ _ Ht).
Qed.

End CoreOrder.

Section PolarsOrder.
Context {V : Type}.
Implicit Types (T : gmap string (Series Polars.pl_dtype V)) (S pre post : schema).

Local Abbreviation body df c t :=
  (bind (Polars._check_column_exists df c)
        (λ _, Polars._check_column_type df c t)).

Lemma polars_conforms_present T pre :
  Forall (polars_conforms T) pre → Forall (λ p, p.1 ∈ dom T) pre.
Proof.
  intros Hall. eapply Forall_impl; [exact Hall|].
  intros p (chk & s & _ & Hs & _). apply elem_of_dom. eauto.
Qed.

(** Nothing is read from a column the table lacks. *)
Lemma polars_absent_events T c c' t ev :
  c ∉ dom T → ev ∈ trace (body T c' t) → event_column ev ≠ Some c.
Proof.
  intros Hc Hev Hcol.
  pose proof (polars_body_events _ _ _ _ _ Hev Hcol) as ->.
  rewrite (polars_exists_absent _ _ Hc) in Hev. cbn in Hev.
  apply list_elem_of_singleton in Hev as ->. discriminate Hcol.
Qed.

(** The loop stops at a column whose iteration raises, once the columns
    declared before it conform. *)
Lemma polars_stops_at T pre post c a w e :
  Forall (polars_conforms T) pre →
  body T c (origin a) = (w, inl e) →
  Polars.validate_dataframe T (pre ++ (c, a) :: post)
  = (trace (Polars.validate_dataframe T pre) ++ w, inl e).
Proof.
  intros Hpre%polars_validate_ok Hb.
  rewrite polars_validate_app, (bind_ok _ _ tt Hpre), polars_validate_cons, Hb.
  done.
Qed.

Lemma polars_missing_column T pre post c a :
  c ∉ dom T →
  (∃ e, outcome (Polars.validate_dataframe T (pre ++ (c, a) :: post)) = inl e)
  ∧ (Forall (polars_conforms T) pre →
     first_absent T (pre ++ (c, a) :: post) = Some c
     ∧ Polars.validate_dataframe T (pre ++ (c, a) :: post)
       = (trace (Polars.validate_dataframe T pre) ++ [ReadColumns],
          inl (ValueError ("Missing column: " +:+ c))))
  ∧ (∀ ev, ev ∈ trace (Polars.validate_dataframe T (pre ++ (c, a) :: post)) →
           event_column ev ≠ Some c).
Proof.
  intros Hc. split_and!.
  - destruct (outcome _) as [e|[]] eqn:Hout; [by eauto|].
    apply polars_validate_ok, Forall_app in Hout as [_ Hca].
    apply Forall_cons in Hca as [(chk & s & _ & Hs & _) _].
    destruct Hc. apply elem_of_dom. eauto.
  - intros Hpre. split.
    + by apply first_absent_app; [apply polars_conforms_present|].
    + apply polars_stops_at; [done|]. by rewrite (polars_exists_absent _ _ Hc).
  - intros ev. rewrite polars_validate_unfold.
    intros ([c' t] & _ & Hev)%for_each_trace. by eapply polars_absent_events.
Qed.

Lemma polars_unsupported_type T pre post c a :
  assoc (origin a) Polars.TYPE_CHECKERS = None →
  (∀ T', Polars._check_column_type T' c (origin a)
         = ([], inl (ValueError ("Unsupported type: " +:+ type_str (origin a)))))
  ∧ (c ∈ dom T → Forall (polars_conforms T) pre →
     Polars.validate_dataframe T (pre ++ (c, a) :: post)
     = (trace (Polars.validate_dataframe T pre) ++ [ReadColumns],
        inl (ValueError ("Unsupported type: " +:+ type_str (origin a))))).
Proof.
  intros Ht. split.
  - intros T'. by apply polars_type_unsupported.
  - intros Hc Hpre. apply polars_stops_at; [done|].
    by rewrite (polars_exists_present _ _ Hc), (polars_type_unsupported _ _ _ Ht).
Qed.

End PolarsOrder.

(** C3 (amended): when a declared column is absent from the table,
    validation fails, in either backend.  The failure is the missing-column
    error naming that column, which is then the first absent one in
    declaration order, provided every column declared before it conforms
    (exists, registered type, accepted by the checker); validation stops
    there.  In every case nothing is read from the absent column and no type
    checker is applied to it. *)
Theorem missing_column_fails_fast :
  (∀ D V (P : Core.PandasTypes D V) (T : gmap string (Series D V))
     (pre post : schema) c a,
     c ∉ dom T →
     (∃ e, outcome (Core.validate_dataframe T (pre ++ (c, a) :: post)) = inl e)
     ∧ (Forall (core_conforms T) pre →
        first_absent T (pre ++ (c, a) :: post) = Some c
        ∧ Core.validate_dataframe T (pre ++ (c, a) :: post)
          = (trace (Core.validate_dataframe T pre) ++ [ReadColumns],
             inl (ValueError ("Missing column: " +:+ c))))
     ∧ (∀ ev, ev ∈ trace (Core.validate_dataframe T (pre ++ (c, a) :: post)) →
              event_column ev ≠ Some c))
  ∧ (∀ V (T : gmap string (Series Polars.pl_dtype V)) (pre post : schema) c a,
       c ∉ dom T →
       (∃ e, outcome (Polars.validate_dataframe T (pre ++ (c, a) :: post)) = inl e)
       ∧ (Forall (polars_conforms T) pre →
          first_absent T (pre ++ (c, a) :: post) = Some c
          ∧ Polars.validate_dataframe T (pre ++ (c, a) :: post)
            = (trace (Polars.validate_dataframe T pre) ++ [ReadColumns],
               inl (ValueError ("Missing column: " +:+ c))))
       ∧ (∀ ev, ev ∈ trace (Polars.validate_dataframe T (pre ++ (c, a) :: post)) →
                event_column ev ≠ Some c)).
Proof.
  split.
  - intros D V P T pre post c a. apply core_missing_column.
  - intros V T pre post c a. apply polars_missing_column.
Qed.

(** C3, as stated, fails: the schema declares [a: int] then [b: int], the
    table has a text column [a] and no column [b]; [b] is the first absent
    column, yet the error raised is the type error of [a]. *)
Lemma missing_column_masked_by_type_error :
  first_absent Samples.text_a [("a", Plain Tint); ("b", Plain Tint)] = Some "b"
  ∧ outcome (Polars.validate_dataframe Samples.text_a
               [("a", Plain Tint); ("b", Plain Tint)])
    = inl (TypeError "Column 'a' expected int, got Utf8")
  ∧ outcome (Polars.validate_dataframe Samples.text_a
               [("a", Plain Tint); ("b", Plain Tint)])
    ≠ inl (ValueError "Missing column: b").
Proof. split_and!; [reflexivity|reflexivity|discriminate]. Qed.

(** C3 (amended), on a table whose first declared column conforms. *)
Lemma missing_column_fails_fast_witness :
  ("b" ∉ dom Samples.text_a)
  ∧ Forall (polars_conforms Samples.text_a) [("a", Plain Tstr)]
  ∧ Polars.validate_dataframe Samples.text_a
      [("a", Plain Tstr); ("b", Plain Tint)]
    = ([ReadColumns; ReadColumn "a"; ApplyChecker Tstr "a"; ReadColumns],
       inl (ValueError "Missing column: b")).
Proof.
  assert ("b" ∉ dom Samples.text_a) as Hb by (vm_compute; set_solver).
  assert (Forall (polars_conforms Samples.text_a) [("a", Plain Tstr)]) as Hpre.
  { repeat constructor. eexists _, _. split_and!; reflexivity. }
  split_and!; [exact Hb|exact Hpre|].
  destruct (proj2 missing_column_fails_fast _ Samples.text_a
              [("a", Plain Tstr)] [] "b" (Plain Tint) Hb) as (_ & Hstop & _).
  etrans; [exact (proj2 (Hstop Hpre))|reflexivity].
Defined.

(** C6 (amended): a declared logical type that the registry has no entry
    for makes the type check of its column raise the unsupported-type error
    whatever table it is given, without reading the column or applying any
    checker; validation of a table that has the column raises that error,
    whatever the column's physical type, provided every column declared
    before it conforms (an earlier failure is reported instead). *)
Theorem unsupported_type_fails_fast :
  (∀ D V (P : Core.PandasTypes D V) (T : gmap string (Series D V))
     (pre post : schema) c a,
     assoc (origin a) Core.TYPE_CHECKERS = None →
     (∀ T', Core._check_column_type T' c (origin a)
            = ([], inl (ValueError ("Unsupported type: " +:+ type_str (origin a)))))
     ∧ (c ∈ dom T → Forall (core_conforms T) pre →
        Core.validate_dataframe T (pre ++ (c, a) :: post)
        = (trace (Core.validate_dataframe T pre) ++ [ReadColumns],
           inl (ValueError ("Unsupported type: " +:+ type_str (origin a))))))
  ∧ (∀ V (T : gmap string (Series Polars.pl_dtype V)) (pre post : schema) c a,
       assoc (origin a) Polars.TYPE_CHECKERS = None →
       (∀ T', Polars._check_column_type (V:=V) T' c (origin a)
              = ([], inl (ValueError ("Unsupported type: " +:+ type_str (origin a)))))
       ∧ (c ∈ dom T → Forall (polars_conforms T) pre →
          Polars.validate_dataframe T (pre ++ (c, a) :: post)
          = (trace (Polars.validate_dataframe T pre) ++ [ReadColumns],
             inl (ValueError ("Unsupported type: " +:+ type_str (origin a)))))).
Proof.
  split.
  - intros D V P T pre post c a. apply core_unsupported_type.
  - intros V T pre post c a. apply polars_unsupported_type.
Qed.

(** C6, as stated, fails: the schema declares [a: int] then [b: bytes], the
    table has both columns, [a] holding text; [bytes] is not registered,
    yet the error raised is the type error of [a]. *)
Lemma unsupported_type_masked_by_type_error :
  assoc Samples.Tbytes Polars.TYPE_CHECKERS = None
  ∧ "b" ∈ dom Samples.text_a_int_b
  ∧ outcome (Polars.validate_dataframe Samples.text_a_int_b
               [("a", Plain Tint); ("b", Plain Samples.Tbytes)])
    = inl (TypeError "Column 'a' expected int, got Utf8")
  ∧ outcome (Polars.validate_dataframe Samples.text_a_int_b
               [("a", Plain Tint); ("b", Plain Samples.Tbytes)])
    ≠ inl (ValueError "Unsupported type: <class 'bytes'>").
Proof.
  split_and!; [reflexivity| |reflexivity|discriminate].
  apply elem_of_dom. by eexists.
Qed.

(** C6 (amended), on a table whose first declared column conforms. *)
Lemma unsupported_type_fails_fast_witness :
  assoc Samples.Tbytes Polars.TYPE_CHECKERS = None
  ∧ "b" ∈ dom Samples.text_a_int_b
  ∧ Forall (polars_conforms Samples.text_a_int_b) [("a", Plain Tstr)]
  ∧ Polars.validate_dataframe Samples.text_a_int_b
      [("a", Plain Tstr); ("b", Plain Samples.Tbytes)]
    = ([ReadColumns; ReadColumn "a"; ApplyChecker Tstr "a"; ReadColumns],
       inl (ValueError "Unsupported type: <class 'bytes'>")).
Proof.
  assert ("b" ∈ dom Samples.text_a_int_b) as Hb.
  { apply elem_of_dom. by eexists. }
  assert (Forall (polars_conforms Samples.text_a_int_b) [("a", Plain Tstr)])
    as Hpre.
  { repeat constructor. eexists _, _. split_and!; reflexivity. }
  split_and!; [reflexivity|exact Hb|exact Hpre|].
  destruct (proj2 unsupported_type_fails_fast _ Samples.text_a_int_b
              [("a", Plain Tstr)] [] "b" (Plain Samples.Tbytes) eq_refl)
    as [_ Hstop].
  etrans; [exact (Hstop Hb Hpre)|reflexivity].
Defined.

(** ** The validator dispatcher of the pandas backend *)
Section Dispatcher.
Context {D : Type}.
Implicit Types (series : Series D PandasImpl.cell) (r : Range.t) (col : string).

Lemma any_Exists {X} (f : X → bool) (l : list X) :
  PandasImpl.any (map f l) = true ↔ Exists (λ x, f x = true) l.
Proof.
  unfold PandasImpl.any. induction l as [|x l IH]; cbn.
  - split; [done|]. by intros ?%Exists_nil.
  - rewrite Exists_cons, orb_true_iff, IH. done.
Qed.

Lemma out_of_range_cell r c :
  out_of_range r c
  ↔ PandasImpl.cell_lt c (Range.min r) = true
    ∨ PandasImpl.cell_gt c (Range.max r) = true.
Proof.
  destruct c as [z|]; cbn.
  - by rewrite !bool_decide_eq_true.
  - split; [done|]. intros [?|?]; discriminate.
Qed.

Lemma out_of_range_masks r (l : list PandasImpl.cell) :
  Exists (out_of_range r) l
  ↔ PandasImpl.any (map (λ c, PandasImpl.cell_lt c (Range.min r)) l)
    || PandasImpl.any (map (λ c, PandasImpl.cell_gt c (Range.max r)) l) = true.
Proof.
  rewrite orb_true_iff, !any_Exists.
  induction l as [|c l IH].
  - split; [by intros ?%Exists_nil|]. by intros [?%Exists_nil|?%Exists_nil].
  - rewrite !Exists_cons, IH, out_of_range_cell. tauto.
Qed.

(** The outcome of the range check, from the two masks. *)
Lemma validate_range_outcome series r col :
  outcome (PandasImpl._validate_range series r col)
  = if PandasImpl.any (map (λ c, PandasImpl.cell_lt c (Range.min r)) (values series))
       || PandasImpl.any (map (λ c, PandasImpl.cell_gt c (Range.max r)) (values series))
    then inl (ValueError ("Column '" +:+ col
                            +:+ "': values must be in range ["
                            +:+ pretty (Range.min r) +:+ ", "
                            +:+ pretty (Range.max r) +:+ "]"))
    else inr tt.
Proof.
  unfold PandasImpl._validate_range, PandasImpl.or_, PandasImpl.lt, PandasImpl.gt.
  cbn. destruct (PandasImpl.any (map _ (values series))); cbn; [done|].
  by destruct (PandasImpl.any (map _ (values series))).
Qed.


Lemma validate_range_passes_iff series r col :
  outcome (PandasImpl._validate_range series r col) = inr tt
  ↔ Forall (λ c, ¬ out_of_range r c) (values series).
Proof.
  rewrite Forall_Exists_neg, out_of_range_masks, validate_range_outcome.
  destruct (_ || _); split; try done.
Qed.


(** C8: a validator that is not a [Range] makes the dispatcher raise the
    unknown-validator error, whose message gives the validator's type,
    whatever the column holds and without any comparison on its values. *)
Theorem unknown_validator_is_a_configuration_error series type_repr col :
  PandasImpl.apply_validator series (NotRange type_repr) col
  = ([], inl (ValueError ("Unknown validator type: " +:+ type_repr)))
  ∧ ∀ (series' : Series D PandasImpl.cell),
      PandasImpl.apply_validator series' (NotRange type_repr) col
      = PandasImpl.apply_validator series (NotRange type_repr) col.
Proof. done. Qed.

End Dispatcher.



(** ** The typed wrapper of the polars backend *)
Section WrapperFacts.
Context {V R : Type} `{Polars.PolarsConstructor V R}.
Implicit Types (h : gmap positive (Polars.object V)) (l : positive)
  (cls : Polars.wrapper_class) (data : Polars.pyvalue R)
  (args : list (Polars.pyvalue R)) (kwargs : list (string * Polars.pyvalue R)).

(** The validation [__new__] runs for a class on a frame. *)
Local Abbreviation validation cls fr :=
  (match Polars._schema cls with
   | Some schema => Polars.validate_dataframe fr schema
   | None => ret tt
   end).

Lemma new_on_data_frame h l o cls args kwargs :
  h !! l = Some o →
  Polars.__new__ cls (Polars.Ref l) args kwargs h
  = (h, bind (validation cls (Polars.frame o)) (λ _, ret l)).
Proof.
  intros Hl. unfold Polars.__new__, Polars.isinstance_pl_DataFrame.
  rewrite decide_True by eauto. unfold Polars.frame_of. by rewrite Hl.
Qed.

Lemma new_on_other_data h data cls args kwargs :
  Polars.isinstance_pl_DataFrame h data = None →
  Polars.__new__ cls data args kwargs h
  = match Polars.pl_DataFrame_init data args kwargs with
    | inl e => (h, raise e)
    | inr fr =>
        (<[fresh (dom h) := Polars.mkObject Polars.pl_DataFrame fr]> h,
         bind (validation cls fr) (λ _, ret (fresh (dom h))))
    end.
Proof.
  intros Hno. unfold Polars.__new__, Polars.pl_DataFrame_new. rewrite Hno.
  destruct (Polars.pl_DataFrame_init data args kwargs) as [e|fr]; [done|].
  unfold Polars.frame_of. by rewrite lookup_insert_eq.
Qed.

Lemma isinstance_cases h data :
  (∃ l o, data = Polars.Ref l ∧ h !! l = Some o)
  ∨ (Polars.isinstance_pl_DataFrame h data = None
     ∧ ∀ l, data = Polars.Ref l → h !! l = None).
Proof.
  destruct data as [l|r]; cbn.
  - destruct (h !! l) as [o|] eqn:Hl.
    + left. eauto.
    + right. rewrite decide_False by (by intros [? ?]). naive_solver.
  - right. naive_solver.
Qed.

Lemma fresh_address_unused h : h !! fresh (dom h) = None.
Proof. apply not_elem_of_dom, is_fresh. Qed.

Lemma all_plain_alloc h fr :
  all_plain h →
  all_plain (<[fresh (dom h) := Polars.mkObject Polars.pl_DataFrame fr]> h).
Proof. intros Hh. by apply map_Forall_insert_2. Qed.

(** A call of [__new__] leaves the store as it is or adds one plain
    [pl.DataFrame] at an unused address. *)
Lemma new_store h data cls args kwargs :
  (Polars.__new__ cls data args kwargs h).1 = h
  ∨ ∃ fr, (Polars.__new__ cls data args kwargs h).1
          = <[fresh (dom h) := Polars.mkObject Polars.pl_DataFrame fr]> h.
Proof.
  destruct (isinstance_cases h data) as [(l & o & -> & Hl)|[Hno _]].
  - left. by rewrite (new_on_data_frame _ _ _ _ _ _ Hl).
  - rewrite (new_on_other_data _ _ _ _ _ Hno).
    destruct (Polars.pl_DataFrame_init data args kwargs) as [e|fr]; eauto.
Qed.

Lemma step_all_plain h h' : Polars.step h h' → all_plain h → all_plain h'.
Proof.
  intros [data args kwargs h0 h1 l Hnew | cls data args kwargs h0] Hh.
  - unfold Polars.pl_DataFrame_new in Hnew.
    destruct (Polars.pl_DataFrame_init data args kwargs) as [e|fr];
      simplify_eq. by apply all_plain_alloc.
  - destruct (new_store h0 data cls args kwargs) as [->|[fr ->]];
      [done|by apply all_plain_alloc].
Qed.

(** No constructor call ever puts an instance of the wrapper class, or of a
    schema-bound class, into the store. *)
Lemma reachable_all_plain h : Polars.reachable h → all_plain h.
Proof.
  unfold Polars.reachable. revert h. apply rtc_ind_r.
  - apply map_Forall_empty.
  - intros h1 h2 _ Hstep IH. by eapply step_all_plain.
Qed.

Lemma bind_ret_returns {X} (m : M unit) (x y : X) tr :
  bind m (λ _, ret x) = (tr, inr y) →
  x = y ∧ tr = trace m ∧ outcome m = inr tt.
Proof.
  destruct m as [w [e|[]]]; cbn; intros ?; simplify_eq.
  by rewrite (right_id_L [] (++)).
Qed.

End WrapperFacts.

Section WrapperProperties.
Context {V R : Type} `{Polars.PolarsConstructor V R}.
Implicit Types (h : gmap positive (Polars.object V)) (l : positive)
  (cls : Polars.wrapper_class) (data : Polars.pyvalue R)
  (args : list (Polars.pyvalue R)) (kwargs : list (string * Polars.pyvalue R)).


(** Raw data that polars builds into a conforming table: the new plain
    data frame is returned. *)
Lemma conforming_raw_data_is_built h r fr cls S args kwargs :
  Polars.pl_DataFrame_init (Polars.Raw r) args kwargs = inr fr →
  Forall (polars_conforms fr) S →
  Polars.__new__ (Polars.__class_getitem__ cls S) (Polars.Raw r) args kwargs h
  = (<[fresh (dom h) := Polars.mkObject Polars.pl_DataFrame fr]> h,
     (trace (Polars.validate_dataframe fr S), inr (fresh (dom h)))).
Proof.
  intros Hinit Hok%polars_validate_ok.
  rewrite new_on_other_data by done. rewrite Hinit. cbn.
  rewrite (bind_ok _ _ tt Hok). cbn. by rewrite (right_id_L [] (++)).
Qed.

(** C10: in a store built by constructor calls, what [DataFrame[S](data)]
    returns is an object of class [pl.DataFrame] itself, never an instance
    of the wrapper or of a schema-bound class.  When [data] is a data frame
    object the result is that object, the store is unchanged and the extra
    positional and keyword arguments play no part; when [data] is raw the
    result is a new plain data frame at an address unused before. *)
Theorem wrapper_returns_plain_data_frame h h' cls S data args kwargs tr l :
  Polars.reachable h →
  Polars.__new__ (Polars.__class_getitem__ cls S) data args kwargs h
  = (h', (tr, inr l)) →
  (∃ o, h' !! l = Some o ∧ Polars.class o = Polars.pl_DataFrame
        ∧ ∀ w, Polars.class o ≠ Polars.Wrapper w)
  ∧ (∀ l0, data = Polars.Ref l0 → is_Some (h !! l0) →
       l = l0 ∧ h' = h
       ∧ ∀ args' kwargs',
           Polars.__new__ (Polars.__class_getitem__ cls S) data args' kwargs' h
           = (h, (tr, inr l0)))
  ∧ (∀ r, data = Polars.Raw r →
       h !! l = None
       ∧ ∃ fr, Polars.pl_DataFrame_init data args kwargs = inr fr
               ∧ h' = <[l := Polars.mkObject Polars.pl_DataFrame fr]> h).
Proof.
  intros Hplain%reachable_all_plain Hnew.
  destruct (isinstance_cases h data) as [(l0 & o & -> & Hl0)|[Hno Hdangling]].
  - rewrite (new_on_data_frame _ _ _ _ _ _ Hl0) in Hnew.
    injection Hnew as <- Hrun.
    split_and!.
    + apply bind_ret_returns in Hrun as (<- & _ & _).
      exists o. pose proof (Hplain _ _ Hl0) as Hcls. cbn in Hcls.
      split_and!; [done|done|]. intros w. by rewrite Hcls.
    + intros l1 [= <-] _.
      pose proof Hrun as (<- & _ & _)%bind_ret_returns.
      split_and!; [done|done|]. intros args' kwargs'.
      rewrite (new_on_data_frame _ _ _ _ _ _ Hl0). f_equal. exact Hrun.
    + intros r [=].
  - rewrite (new_on_other_data _ _ _ _ _ Hno) in Hnew.
    destruct (Polars.pl_DataFrame_init data args kwargs) as [e|fr] eqn:Hinit;
      [by injection Hnew|].
    injection Hnew as <- Hrun.
    apply bind_ret_returns in Hrun as (<- & _ & _).
    split_and!.
    + eexists. rewrite lookup_insert_eq. split_and!; [done|done|done].
    + intros l1 -> [o Hl1]. by rewrite (Hdangling _ eq_refl) in Hl1.
    + intros r ->. split; [apply fresh_address_unused|by exists fr].
Qed.

End WrapperProperties.


(** C10, on raw data given to the wrapper in the empty store. *)
Lemma wrapper_returns_plain_data_frame_witness :
  Polars.reachable (V := PandasImpl.cell)
    (R := list (string * Series Polars.pl_dtype PandasImpl.cell)) ∅
  ∧ ∃ o, Samples.age_store !! 1%positive = Some o
         ∧ Polars.class o = Polars.pl_DataFrame.
Proof.
  assert (Polars.reachable (V := PandasImpl.cell)
            (R := list (string * Series Polars.pl_dtype PandasImpl.cell)) ∅)
    as Hreach by apply rtc_refl.
  split; [exact Hreach|].
  destruct (wrapper_returns_plain_data_frame
              ∅ Samples.age_store Polars.DataFrame Samples.AgeSchema
              (Polars.Raw [("age", Samples.age_series Polars.Int64)]) [] []
              [ReadColumns; ReadColumn "age"; ApplyChecker Tint "age"]
              1%positive Hreach eq_refl) as [(o & Ho & Hcls & _) _].
  by exists o.
Defined.

(** ** Where the code departs from its tests *)

(** [get_type_hints] gives the same columns whether or not validators are
    attached, so neither [validate_dataframe] can depend on them. *)
Lemma get_type_hints_drops_metadata (S : schema) :
  get_type_hints S = get_type_hints (map (λ p, (p.1, Plain (origin p.2))) S).
Proof.
  unfold get_type_hints. rewrite map_map. apply map_ext. by intros [c a].
Qed.

Lemma validation_ignores_validators {D V} `{Core.PandasTypes D V}
    (T : gmap string (Series D V))
    (T' : gmap string (Series Polars.pl_dtype V)) (S : schema) :
  Core.validate_dataframe T S
  = Core.validate_dataframe T (map (λ p, (p.1, Plain (origin p.2))) S)
  ∧ Polars.validate_dataframe T' S
    = Polars.validate_dataframe T' (map (λ p, (p.1, Plain (origin p.2))) S).
Proof.
  unfold Core.validate_dataframe, Polars.validate_dataframe.
  by rewrite <- get_type_hints_drops_metadata.
Qed.

(** C1 (not met by the code): for the schema [age: Annotated[int, Range(0,
    150)]] and the table [{"age": [25, -5, 30]}], the wrapper of the polars
    backend returns the table and the core [validate_dataframe] succeeds:
    only the column list, the column and the integer checker are consulted,
    no comparison with a bound takes place.  The dispatcher, applied to the
    same column, would have raised the range error. *)
Theorem range_violation_is_not_reported :
  Polars.__new__ (R := list (string * Series Polars.pl_dtype PandasImpl.cell))
    (Polars.__class_getitem__ Polars.DataFrame Samples.AgeSchema)
    (Polars.Ref 1%positive) [] [] Samples.age_store
  = (Samples.age_store,
     ([ReadColumns; ReadColumn "age"; ApplyChecker Tint "age"], inr 1%positive))
  ∧ Core.validate_dataframe (Samples.age_frame Samples.int64) Samples.AgeSchema
    = ([ReadColumns; ReadColumn "age"; ApplyChecker Tint "age"], inr tt)
  ∧ PandasImpl.apply_validator (Samples.age_series Samples.int64)
      (IsRange (Range.mk 0 150)) "age"
    = ([CompareLt 0],
       inl (ValueError "Column 'age': values must be in range [0, 150]")).
Proof. split_and!; reflexivity. Qed.

(** C4 (not met by the code): the registry of the polars backend has no
    entry for [datetime], [date] and [timedelta]; on the table of the
    datetime test, whose three columns have the matching polars dtypes,
    validation raises the unsupported-type error for the first column, and
    so does the wrapper. *)
Theorem datetime_types_are_unsupported :
  assoc Tdatetime Polars.TYPE_CHECKERS = None
  ∧ assoc Tdate Polars.TYPE_CHECKERS = None
  ∧ assoc Ttimedelta Polars.TYPE_CHECKERS = None
  ∧ Polars.validate_dataframe Samples.datetime_frame Samples.DatetimeSchema
    = ([ReadColumns],
       inl (ValueError "Unsupported type: <class 'datetime.datetime'>"))
  ∧ Polars.__new__ (R := list (string * Series Polars.pl_dtype Z))
      (Polars.__class_getitem__ Polars.DataFrame Samples.DatetimeSchema)
      (Polars.Ref 1%positive) [] [] Samples.datetime_store
    = (Samples.datetime_store,
       ([ReadColumns],
        inl (ValueError "Unsupported type: <class 'datetime.datetime'>"))).
Proof. split_and!; reflexivity. Qed.

(** * Further properties of the embedded code *)

(** ** The validation loop of both backends *)

Lemma for_each_prefix_raises {A} (f : A → M unit) (l1 l2 : list A) e :
  outcome (for_each f l1) = inl e → for_each f (l1 ++ l2) = for_each f l1.
Proof.
  intros He. rewrite for_each_app, (bind_raise _ _ e He).
  destruct (for_each f l1) as [w r]. cbn in *. by subst.
Qed.

(** X1: validation succeeds exactly on the tables in which every declared column
    exists, has a registered logical type, and is accepted by the checker
    registered for that type. *)
Theorem validation_succeeds_iff_all_columns_conform :
  (∀ D V (P : Core.PandasTypes D V) (T : gmap string (Series D V)) (S : schema),
     outcome (Core.validate_dataframe T S) = inr tt
     ↔ Forall (core_conforms T) S)
  ∧ (∀ V (T : gmap string (Series Polars.pl_dtype V)) (S : schema),
       outcome (Polars.validate_dataframe T S) = inr tt
       ↔ Forall (polars_conforms T) S).
Proof.
  split.
  - intros D V P T S. apply core_validate_ok.
  - intros V T S. apply polars_validate_ok.
Qed.

(** X2: once the columns declared so far have made validation fail, whatever
    the schema declares after them changes neither the exception nor the
    accesses made. *)
Theorem validation_stops_at_first_failure :
  (∀ D V (P : Core.PandasTypes D V) (T : gmap string (Series D V))
     (S1 S2 : schema) e,
     outcome (Core.validate_dataframe T S1) = inl e →
     Core.validate_dataframe T (S1 ++ S2) = Core.validate_dataframe T S1)
  ∧ (∀ V (T : gmap string (Series Polars.pl_dtype V)) (S1 S2 : schema) e,
       outcome (Polars.validate_dataframe T S1) = inl e →
       Polars.validate_dataframe T (S1 ++ S2) = Polars.validate_dataframe T S1).
Proof.
  split.
  - intros D V P T S1 S2 e. rewrite !core_validate_unfold.
    unfold get_type_hints. rewrite map_app. apply for_each_prefix_raises.
  - intros V T S1 S2 e. rewrite !polars_validate_unfold.
    unfold get_type_hints. rewrite map_app. apply for_each_prefix_raises.
Qed.

Lemma validation_stops_at_first_failure_witness :
  Polars.validate_dataframe Samples.text_a
    ([("a", Plain Tint)] ++ [("b", Plain Tint); ("c", Plain Samples.Tbytes)])
  = ([ReadColumns; ReadColumn "a"; ApplyChecker Tint "a"],
     inl (TypeError "Column 'a' expected int, got Utf8")).
Proof.
  etrans; [|reflexivity].
  exact (proj2 validation_stops_at_first_failure _ Samples.text_a
           [("a", Plain Tint)] [("b", Plain Tint); ("c", Plain Samples.Tbytes)]
           (TypeError "Column 'a' expected int, got Utf8") eq_refl).
Defined.

(** X3: a table that passes validation against a schema passes it against
    every schema whose declarations are among those of the first, in any
    order: the runtime check is a subset contract. *)
Theorem narrower_schema_accepts_validated_table :
  (∀ D V (P : Core.PandasTypes D V) (T : gmap string (Series D V))
     (S S' : schema),
     S' ⊆ S →
     outcome (Core.validate_dataframe T S) = inr tt →
     outcome (Core.validate_dataframe T S') = inr tt)
  ∧ (∀ V (T : gmap string (Series Polars.pl_dtype V)) (S S' : schema),
       S' ⊆ S →
       outcome (Polars.validate_dataframe T S) = inr tt →
       outcome (Polars.validate_dataframe T S') = inr tt).
Proof.
  split.
  - intros D V P T S S' Hsub. rewrite !core_validate_ok, !Forall_forall.
    intros Hall p Hp. by apply Hall, Hsub.
  - intros V T S S' Hsub. rewrite !polars_validate_ok, !Forall_forall.
    intros Hall p Hp. by apply Hall, Hsub.
Qed.

Lemma narrower_schema_accepts_validated_table_witness :
  [("b", Plain Tint)] ⊆ [("a", Plain Tstr); ("b", Plain Tint)]
  ∧ outcome (Polars.validate_dataframe Samples.text_a_int_b
               [("a", Plain Tstr); ("b", Plain Tint)]) = inr tt
  ∧ outcome (Polars.validate_dataframe Samples.text_a_int_b [("b", Plain Tint)])
    = inr tt.
Proof.
  assert ([("b", Plain Tint)] ⊆ [("a", Plain Tstr); ("b", Plain Tint)]) as Hsub.
  { intros p ->%list_elem_of_singleton. right. left. }
  split_and!; [exact Hsub|reflexivity|].
  exact (proj2 narrower_schema_accepts_validated_table _
           Samples.text_a_int_b _ _ Hsub eq_refl).
Defined.

(** ** The polars backend *)
Section PolarsFurther.
Context {V : Type}.
Implicit Types (T : gmap string (Series Polars.pl_dtype V)) (S : schema).

Local Abbreviation body df c t :=
  (bind (Polars._check_column_exists df c)
        (λ _, Polars._check_column_type df c t)).

(** X4: every exception that leaves the polars [validate_dataframe] is the
    missing-column [ValueError], the unsupported-type [ValueError] or the
    mismatch [TypeError]: the lookup [df[col_name]] is only made on columns
    known to exist, so its own error never escapes. *)
Theorem polars_validation_raises_only_its_own_errors T S e :
  outcome (Polars.validate_dataframe T S) = inl e →
  (∃ c, c ∈ declared S ∧ (c ∉ dom T)
        ∧ e = ValueError ("Missing column: " +:+ c))
  ∨ (∃ c a, (c, a) ∈ S ∧ c ∈ dom T
            ∧ assoc (origin a) Polars.TYPE_CHECKERS = None
            ∧ e = ValueError ("Unsupported type: " +:+ type_str (origin a)))
  ∨ (∃ c a type_checker s,
       (c, a) ∈ S ∧ assoc (origin a) Polars.TYPE_CHECKERS = Some type_checker
       ∧ T !! c = Some s ∧ type_checker (dtype s) = false
       ∧ e = TypeError ("Column '" +:+ c +:+ "' expected "
                          +:+ type_name (origin a) +:+ ", got "
                          +:+ Polars.dtype_str (dtype s))).
Proof.
  rewrite polars_validate_unfold.
  intros (l1 & [c t] & l2 & Hl & _ & He & _)%for_each_raises.
  assert ((c, t) ∈ get_type_hints S) as (a & Hin & ->)%declared_hint.
  { rewrite Hl. apply elem_of_app. right. left. }
  cbn [fst snd] in He.
  destruct (polars_body_cases T c (origin a))
    as [[Hout Hb]|[(Hc&Ht&Hb)|[(chk&s&Ht&Hs&Hok&Hb)|(chk&s&_&_&_&Hb)]]];
    rewrite Hb in He; cbn in He; simplify_eq.
  - left. exists c. eauto using declared_elem.
  - right. left. exists c, a. eauto.
  - right. right. exists c, a, chk, s. eauto 10.
Qed.

(** X5: when validation succeeds, the accesses made are, for each declared
    column in declaration order: the column list, the column, and the
    checker of its type, and nothing else. *)
Theorem polars_successful_validation_trace T S :
  outcome (Polars.validate_dataframe T S) = inr tt →
  trace (Polars.validate_dataframe T S)
  = concat (map (λ p, [ReadColumns; ReadColumn p.1; ApplyChecker p.2 p.1])
              (get_type_hints S)).
Proof.
  induction S as [|[c a] S IH]; [done|].
  intros Hok. pose proof Hok as Hall%polars_validate_ok.
  apply Forall_cons in Hall as [(chk & s & Ht & Hs & Hacc) Hall].
  cbn [fst snd] in *.
  rewrite polars_validate_cons.
  rewrite (polars_exists_present T c) by (apply elem_of_dom; eauto).
  rewrite (polars_type_accepts _ _ _ _ _ Ht Hs Hacc). cbn.
  f_equal. f_equal. f_equal. apply IH. by apply polars_validate_ok.
Qed.

End PolarsFurther.

(** X6: the polars validation looks at column names and dtypes only: two
    tables, even with values of different kinds, whose declared columns have
    the same dtypes are validated with the same result and accesses. *)
Theorem polars_validation_depends_on_dtypes_only {V V'}
    (T : gmap string (Series Polars.pl_dtype V))
    (T' : gmap string (Series Polars.pl_dtype V')) (S : schema) :
  (∀ c, c ∈ declared S → dtype <$> T !! c = dtype <$> T' !! c) →
  Polars.validate_dataframe T S = Polars.validate_dataframe T' S.
Proof.
  intros Hagree. rewrite !polars_validate_unfold. apply for_each_ext.
  intros [c t] (a & Hin & ->)%declared_hint. cbn [fst snd].
  specialize (Hagree c (declared_elem _ _ _ Hin)).
  destruct (T !! c) as [s|] eqn:Hs, (T' !! c) as [s'|] eqn:Hs';
    cbn in Hagree; try discriminate Hagree.
  - injection Hagree as Hd.
    rewrite (polars_exists_present T c), (polars_exists_present T' c)
      by (apply elem_of_dom; eauto).
    destruct (assoc (origin a) Polars.TYPE_CHECKERS) as [chk|] eqn:Ht.
    + destruct (chk (dtype s)) eqn:Hacc.
      * rewrite (polars_type_accepts T _ _ _ _ Ht Hs Hacc).
        rewrite Hd in Hacc.
        by rewrite (polars_type_accepts T' _ _ _ _ Ht Hs' Hacc).
      * rewrite (polars_type_rejects T _ _ _ _ Ht Hs Hacc).
        rewrite Hd in Hacc |- *.
        by rewrite (polars_type_rejects T' _ _ _ _ Ht Hs' Hacc).
    + by rewrite !polars_type_unsupported.
  - by rewrite (polars_exists_absent T c), (polars_exists_absent T' c)
      by (by apply not_elem_of_dom).
Qed.

(** The same column of integers as text-tagged values and as numbers. *)
Lemma polars_validation_depends_on_dtypes_only_witness :
  Polars.validate_dataframe
    ({[ "a" := mkSeries Polars.Int64 [Samples.PyInt 1] ]}
       : gmap string (Series Polars.pl_dtype Samples.pyval))
    Samples.SimpleSchema
  = Polars.validate_dataframe
      ({[ "a" := mkSeries Polars.Int64 [7; 8; 9] ]}
         : gmap string (Series Polars.pl_dtype Z))
      Samples.SimpleSchema.
Proof.
  apply polars_validation_depends_on_dtypes_only.
  intros c ->%list_elem_of_singleton. reflexivity.
Defined.

(** A failing input of the polars backend: text where integers are
    declared. *)
Lemma polars_validation_raises_only_its_own_errors_witness :
  outcome (Polars.validate_dataframe Samples.text_a Samples.SimpleSchema)
  = inl (TypeError "Column 'a' expected int, got Utf8")
  ∧ ∃ e, outcome (Polars.validate_dataframe Samples.text_a Samples.SimpleSchema)
         = inl e
         ∧ class_of e ≠ LookupError_class.
Proof.
  split; [reflexivity|].
  exists (TypeError "Column 'a' expected int, got Utf8"). split; [reflexivity|].
  destruct (polars_validation_raises_only_its_own_errors
              Samples.text_a Samples.SimpleSchema
              (TypeError "Column 'a' expected int, got Utf8") eq_refl)
    as [(?&?&?&?)|[(?&?&?&?&?&?)|(?&?&?&?&?&?&?&?&?)]]; done.
Defined.

Lemma polars_successful_validation_trace_witness :
  trace (Polars.validate_dataframe Samples.text_a_int_b
           [("b", Plain Tint); ("a", Plain Tstr)])
  = [ReadColumns; ReadColumn "b"; ApplyChecker Tint "b";
     ReadColumns; ReadColumn "a"; ApplyChecker Tstr "a"].
Proof.
  etrans; [|reflexivity].
  exact (polars_successful_validation_trace Samples.text_a_int_b
           [("b", Plain Tint); ("a", Plain Tstr)] eq_refl).
Defined.

(** ** The registry of the polars backend *)

(** X7: no polars dtype is accepted under two different logical types, and the
    dtypes [Datetime], [Date], [Duration], [Time], [Categorical] and [Null]
    are accepted under none: a column of such a dtype cannot pass
    validation, whatever type the schema declares for it. *)
Theorem polars_registry_is_exclusive :
  (∀ t1 t2 chk1 chk2 d,
     assoc t1 Polars.TYPE_CHECKERS = Some chk1 →
     assoc t2 Polars.TYPE_CHECKERS = Some chk2 →
     chk1 d = true → chk2 d = true → t1 = t2)
  ∧ (∀ t chk d,
       assoc t Polars.TYPE_CHECKERS = Some chk →
       d ∈ [Polars.Datetime; Polars.Date; Polars.Duration; Polars.Time;
            Polars.Categorical; Polars.Null] →
       chk d = false).
Proof.
  split.
  - intros t1 t2 chk1 chk2 d H1 H2.
    destruct t1, t2; vm_compute in H1, H2; simplify_eq; try done;
      destruct d; vm_compute; intros; congruence.
  - intros t chk d Ht Hd.
    destruct t; vm_compute in Ht; simplify_eq;
      repeat (apply elem_of_cons in Hd as [->|Hd]); try done;
      by apply elem_of_nil in Hd.
Qed.

Lemma polars_registry_is_exclusive_witness :
  ∃ chk, assoc Tint Polars.TYPE_CHECKERS = Some chk
         ∧ chk Polars.Int32 = true
         ∧ ∀ t chk', assoc t Polars.TYPE_CHECKERS = Some chk' →
                     chk' Polars.Int32 = true → t = Tint.
Proof.
  eexists. split_and!; [reflexivity|reflexivity|].
  intros t chk' Ht Hacc. symmetry.
  exact (proj1 polars_registry_is_exclusive Tint t _ chk' Polars.Int32
           eq_refl Ht eq_refl Hacc).
Defined.

(** ** The typed wrapper: outcomes and the store *)
Section WrapperFurther.
Context {V R : Type} `{Polars.PolarsConstructor V R}.
Implicit Types (h : gmap positive (Polars.object V)) (l : positive)
  (cls : Polars.wrapper_class) (data : Polars.pyvalue R)
  (args : list (Polars.pyvalue R)) (kwargs : list (string * Polars.pyvalue R)).

(** X8: given a data frame object, [DataFrame[S]] does what validation does: it
    makes the same accesses, raises the exception validation raises, and
    otherwise returns the object; the store is the same afterwards in both
    cases. *)
Theorem wrapper_propagates_validation h l o cls S args kwargs :
  h !! l = Some o →
  Polars.__new__ (Polars.__class_getitem__ cls S) (Polars.Ref l) args kwargs h
  = (h, (trace (Polars.validate_dataframe (Polars.frame o) S),
         match outcome (Polars.validate_dataframe (Polars.frame o) S) with
         | inl e => inl e
         | inr _ => inr l
         end)).
Proof.
  intros Hl. rewrite (new_on_data_frame _ _ _ _ _ _ Hl). cbn.
  destruct (Polars.validate_dataframe (Polars.frame o) S) as [w [e|[]]];
    cbn; [done|]. by rewrite (right_id_L [] (++)).
Qed.

(** X9: what [DataFrame[S]] has returned is accepted again, as the same object
    and without change to the store, by [DataFrame[S']] for every schema
    [S'] whose declarations are among those of [S]. *)
Theorem wrapper_result_passes_narrower_schema
    h h' cls cls' S S' data args kwargs args' kwargs' tr l :
  Polars.__new__ (Polars.__class_getitem__ cls S) data args kwargs h
  = (h', (tr, inr l)) →
  S' ⊆ S →
  ∃ tr', Polars.__new__ (Polars.__class_getitem__ cls' S') (Polars.Ref l)
           args' kwargs' h'
         = (h', (tr', inr l)).
Proof.
  intros Hnew Hsub.
  assert (∃ o, h' !! l = Some o
               ∧ outcome (Polars.validate_dataframe (Polars.frame o) S) = inr tt)
    as (o & Hl & Hok).
  { destruct (isinstance_cases h data) as [(l0 & o & -> & Hl0)|[Hno _]].
    - rewrite (new_on_data_frame _ _ _ _ _ _ Hl0) in Hnew.
      injection Hnew as <- Hrun.
      apply bind_ret_returns in Hrun as (<- & _ & Hok). eauto.
    - rewrite (new_on_other_data _ _ _ _ _ Hno) in Hnew.
      destruct (Polars.pl_DataFrame_init data args kwargs) as [e|fr];
        [by injection Hnew|].
      injection Hnew as <- Hrun.
      apply bind_ret_returns in Hrun as (<- & _ & Hok).
      eexists. by rewrite lookup_insert_eq. }
  assert (outcome (Polars.validate_dataframe (Polars.frame o) S') = inr tt)
    as Hok'.
  { revert Hok. rewrite !polars_validate_ok, !Forall_forall.
    intros Hall p Hp. by apply Hall, Hsub. }
  eexists. rewrite (new_on_data_frame _ _ _ _ _ _ Hl). cbn.
  by rewrite (bind_ok _ _ tt Hok').
Qed.

End WrapperFurther.

Lemma wrapper_propagates_validation_witness :
  Polars.__new__ (R := list (string * Series Polars.pl_dtype Z))
    (Polars.__class_getitem__ Polars.DataFrame Samples.SimpleSchema)
    (Polars.Ref 1%positive) [] [] Samples.datetime_store
  = (Samples.datetime_store,
     ([ReadColumns], inl (ValueError "Missing column: a"))).
Proof.
  etrans; [|reflexivity].
  exact (wrapper_propagates_validation Samples.datetime_store 1%positive _
           Polars.DataFrame Samples.SimpleSchema [] [] eq_refl).
Defined.

Lemma wrapper_result_passes_narrower_schema_witness :
  [("b", Plain Tint)] ⊆ [("a", Plain Tstr); ("b", Plain Tint)]
  ∧ ∃ tr',
      Polars.__new__ (R := list (string * Series Polars.pl_dtype Samples.pyval))
        (Polars.__class_getitem__ Polars.DataFrame [("b", Plain Tint)])
        (Polars.Ref 1%positive) [] []
        (Samples.store_of Samples.text_a_int_b)
      = (Samples.store_of Samples.text_a_int_b,
         (tr', inr 1%positive)).
Proof.
  assert ([("b", Plain Tint)] ⊆ [("a", Plain Tstr); ("b", Plain Tint)]) as Hsub.
  { intros p ->%list_elem_of_singleton. right. left. }
  split; [exact Hsub|].
  exact (wrapper_result_passes_narrower_schema
           (Samples.store_of Samples.text_a_int_b) _
           Polars.DataFrame Polars.DataFrame
           [("a", Plain Tstr); ("b", Plain Tint)] [("b", Plain Tint)]
           (Polars.Ref 1%positive) [] [] [] []
           [ReadColumns; ReadColumn "a"; ApplyChecker Tstr "a";
            ReadColumns; ReadColumn "b"; ApplyChecker Tint "b"]
           1%positive eq_refl Hsub).
Defined.

(** ** The dispatcher and the range check *)
Section DispatcherFurther.
Context {D : Type}.
Implicit Types (series : Series D PandasImpl.cell) (r : Range.t) (col : string).



(** X12: passing is kept when the range is widened: a column that passes
    [Range(min, max)] passes every range with a lower or equal [min] and a
    greater or equal [max], under any column name. *)
Theorem wider_range_accepts_what_narrower_accepts series r r' col col' :
  Range.min r' ≤ Range.min r →
  Range.max r ≤ Range.max r' →
  outcome (PandasImpl._validate_range series r col) = inr tt →
  outcome (PandasImpl._validate_range series r' col') = inr tt.
Proof.
  intros Hmin Hmax. rewrite !validate_range_passes_iff.
  intros Hall. eapply Forall_impl; [exact Hall|].
  intros [z|]; cbn; [lia|done].
Qed.

End DispatcherFurther.



Lemma wider_range_accepts_what_narrower_accepts_witness :
  outcome (PandasImpl._validate_range (Samples.ages_in_range Samples.int64)
             (Range.mk (-10) 200) "years") = inr tt.
Proof.
  apply (wider_range_accepts_what_narrower_accepts
           (Samples.ages_in_range Samples.int64)
           (Range.mk 0 150) (Range.mk (-10) 200) "age" "years");
    [cbn; lia|cbn; lia|reflexivity].
Defined.
